(** * The [show-deploys] command of the CasperLabs Python client

    Source: client-py/casperlabs_client/commands/show_deploys_cmd.py

    The module exports three constants ([NAME], [HELP], [OPTIONS]) and one
    callable, [method], which is the function written under [def method]
    decorated with [guarded_command].  The function asks the client object
    for the deploys of a block and hands the answer to [_print_blocks].

    Both collaborators live outside the module.  They are modelled as
    arbitrary state transformers over an abstract outside world, which may
    return a value or raise; every invocation is recorded in a trace so
    that statements about "which calls are made" can be phrased. *)

From Stdlib Require Import String List ZArith.
From stdpp Require Import base strings gmap list.
Import ListNotations.
Local Open Scope string_scope.
Local Open Scope list_scope.
Set Warnings "-register-all".

(** ** Python values, exceptions and calls *)

Module Py.

(** The fragment of the Python value universe that flows through the
    command: [None], booleans, integers (exit codes), strings, the [str]
    type object used in the option schema, and sequences (the response is
    a sequence of deploy records). *)
Inductive value : Type :=
| VNone
| VBool (b : bool)
| VInt (z : Z)
| VStr (s : string)
| VType (name : string)
| VSeq (items : list value).

(** An exception object: its class name and its message. *)
Record exn : Type := mk_exn { exn_class : string; exn_msg : string }.

(** How the evaluation of an expression or of a function body ends. *)
Inductive outcome (A : Type) : Type :=
| Returned (a : A)
| Raised (e : exn).
Arguments Returned {A} a.
Arguments Raised {A} e.

(** Did it end by returning? *)
Definition is_returned {A : Type} (o : outcome A) : bool :=
  match o with
  | Returned _ => true
  | Raised _ => false
  end.

(** Keyword arguments, in the order they are written at the call site. *)
Definition kwargs : Type := list (string * value).

(** Who is being called: a method looked up on the client object, a
    module-level function imported from [casperlabs_client.utils], or a
    Python builtin. *)
Inductive callee : Type :=
| ClientMethod (name : string)
| UtilsFunction (name : string)
| Builtin (name : string).

(** One recorded invocation. *)
Record call : Type := mk_call {
  call_target : callee;
  call_args : list value;
  call_kwargs : kwargs
}.

(** An [argparse.Namespace]: attribute name to value. *)
Abbreviation namespace := (gmap string value).

Section World.

(** The outside world (the node behind the gRPC channel, the terminal). *)
Context {W : Type}.

(** A callable living outside the module. *)
Definition external : Type :=
  list value -> kwargs -> W -> outcome value * W.

(** The client object, seen through its methods. *)
Definition client : Type := string -> external.

(** Interpreter state: the outside world and the trace of the calls that
    left the module so far, oldest first. *)
Record state : Type := mk_state { world : W; trace : list call }.

(** Computations: state passing with exceptions. *)
Definition M (A : Type) : Type := state -> outcome A * state.

#[global] Instance M_ret : MRet M :=
  fun A (a : A) st => (Returned a, st).

(** [raise e] *)
#[global] Instance M_throw : MThrow exn M :=
  fun A (e : exn) st => (Raised e, st).

(** Sequencing: an exception raised by the first part skips the rest. *)
#[global] Instance M_bind : MBind M :=
  fun A B (k : A -> M B) (m : M A) st =>
    match m st with
    | (Returned a, st') => k a st'
    | (Raised e, st') => (Raised e, st')
    end.

(** [try: m except BaseException as e: h e] *)
Definition try_except {A : Type} (m : M A) (h : exn -> M A) : M A :=
  fun st =>
    match m st with
    | (Returned a, st') => (Returned a, st')
    | (Raised e, st') => h e st'
    end.

(** Attribute access [ns.name] on a namespace. *)
Definition getattr (ns : namespace) (name : string) : M value :=
  match ns !! name with
  | Some v => mret v
  | None =>
      mthrow (mk_exn "AttributeError"
               ("'Namespace' object has no attribute '" ++ name ++ "'")%string)
  end.

(** Calling an external callable: it runs on the current world, and the
    call is appended to the trace whether it returns or raises. *)
Definition invoke (c : callee) (f : external)
    (pos : list value) (kw : kwargs) : M value :=
  fun st =>
    let '(o, w') := f pos kw (world st) in
    (o, mk_state w' (trace st ++ [mk_call c pos kw])).

End World.

Arguments external : clear implicits.
Arguments client : clear implicits.
Arguments state : clear implicits.
Arguments M : clear implicits.

End Py.

Import Py.

(** ** The module [show_deploys_cmd] *)

(** [NAME: str = "show-deploys"] *)
Definition NAME : string := "show-deploys".

(** [HELP: str = "View deploys included in a block."] *)
Definition HELP : string := "View deploys included in a block.".

(** [OPTIONS = [[("hash",), dict(type=str, help="...")]]]: a list of
    entries, each a tuple of names and a dictionary of settings handed to
    the argument parser by the dispatcher. *)
Definition OPTIONS : list (list string * gmap string value) :=
  [ (["hash"],
     {[ "type" := VType "str";
        "help" := VStr "Value of the block hash, base16 encoded." ]}) ].

Section Imports.

Context {W : Type}.

(** A command as the dispatcher sees it: [f(casperlabs_client, args)]. *)
Definition command : Type := client W -> namespace -> M W value.

(** [from casperlabs_client.utils import guarded_command, _print_blocks] *)
Variable guarded_command : command -> command.
Variable _print_blocks : external W.

(** The function written under [def method(casperlabs_client, args)]. *)
Definition method_body : command :=
  fun casperlabs_client args =>
    hash ← getattr args "hash";
    response ← invoke (ClientMethod "showDeploys")
                 (casperlabs_client "showDeploys")
                 [hash] [("full_view", VBool false)];
    invoke (UtilsFunction "_print_blocks") _print_blocks
      [response] [("element_name", VStr "deploy")];;
    mret VNone.

(** The module attribute [method]: the decorator applied to the function. *)
Definition method : command := guarded_command method_body.

End Imports.

Arguments command : clear implicits.

(** ** Reading a trace *)

(** The calls a computation adds to the trace when started in [st]. *)
Definition issued {W A : Type} (m : M W A) (st : state W) : list call :=
  drop (length (trace st)) (trace (m st).2).

Definition is_client_call (c : call) : bool :=
  match call_target c with
  | ClientMethod _ => true
  | _ => false
  end.

Definition is_print_blocks_call (c : call) : bool :=
  match call_target c with
  | UtilsFunction name => String.eqb name "_print_blocks"
  | _ => false
  end.

(** [casperlabs_client.showDeploys(h, full_view=False)] as a trace entry. *)
Definition showDeploys_call (h : value) : call :=
  mk_call (ClientMethod "showDeploys") [h] [("full_view", VBool false)].

(** [_print_blocks(r, element_name="deploy")] as a trace entry. *)
Definition print_blocks_call (r : value) : call :=
  mk_call (UtilsFunction "_print_blocks") [r] [("element_name", VStr "deploy")].

(** ** The option schema, as the argument parser reads it *)

(** A name with a leading dash declares a flag; any other name declares a
    positional argument. *)
Definition is_flag_name (name : string) : bool := String.prefix "-" name.

Definition option_names (o : list string * gmap string value) : list string :=
  o.1.

Definition option_settings (o : list string * gmap string value)
  : gmap string value := o.2.

(** Whether the argument parser insists on the argument being given.  A
    flag is required only when its settings say [required=True].  A
    positional is required, unless [nargs] is ["?"], or is ["*"] with a
    [default] given. *)
Definition argparse_required (o : list string * gmap string value) : bool :=
  if existsb is_flag_name (option_names o) then
    match option_settings o !! "required" with
    | Some (VBool true) => true
    | _ => false
    end
  else
    match option_settings o !! "nargs" with
    | Some (VStr "?") => false
    | Some (VStr "*") =>
        match option_settings o !! "default" with
        | Some _ => false
        | None => true
        end
    | _ => true
    end.

(** ** The guard, as far as the spec describes it *)

(** Modelled from the spec: [guarded_command] is defined in
    [casperlabs_client.utils], which is not among the sources.  The spec
    describes it as a wrapper "that calls the inner handler, catches all
    exceptions, formats them, and sets the process exit code", the exit
    being non-zero.  [report] stands for the routine that writes the
    formatted message; what the wrapper yields when the handler returns is
    left as the handler's own result. *)
Definition guarded_command_spec {W : Type} (report : external W)
    (function : command W) : command W :=
  fun casperlabs_client args =>
    try_except (function casperlabs_client args)
      (fun e =>
         invoke (Builtin "print") report [VStr (exn_msg e)] [];;
         mret (VInt 1)).

(** ** Stand-ins for the collaborators

    A terminal that keeps the lines written to it serves as the outside
    world wherever a statement is exercised on concrete data. *)

Module Fixtures.

Definition terminal : Type := list string.

(** A client whose [showDeploys] ends with [answer] whatever it is asked;
    it has no other method. *)
Definition stub_client (answer : outcome value) : client terminal :=
  fun name pos kw w =>
    if String.eqb name "showDeploys" then (answer, w)
    else (Raised (mk_exn "AttributeError" name), w).

(** A renderer that writes one line per element of the response, then the
    number of elements seen. *)
Definition stub_print_blocks : external terminal :=
  fun pos kw w =>
    match pos with
    | [VSeq items] =>
        (Returned VNone,
         w ++ map (fun _ => "element") items ++ ["count"])
    | _ => (Raised (mk_exn "TypeError" "not iterable"), w)
    end.

(** A reporter that writes the message it is given. *)
Definition stub_report : external terminal :=
  fun pos kw w =>
    match pos with
    | [VStr msg] => (Returned VNone, w ++ [msg])
    | _ => (Returned VNone, w)
    end.

Definition block_not_found : exn :=
  mk_exn "InternalError" "NOT_FOUND: Cannot find block matching hash abc123".

Definition args_abc123 : namespace := {[ "hash" := VStr "abc123" ]}.

Definition fresh : state terminal := mk_state [] [].

(** A client with a second method next to [showDeploys], one that would
    leave a mark on the terminal if it were ever called. *)
Definition busy_client (answer : outcome value) : client terminal :=
  fun name pos kw w =>
    if String.eqb name "showDeploys" then (answer, w)
    else (Returned VNone, w ++ ["other method called"]).

(** A client that answers with what is on the terminal at the time of the
    query, one record per line. *)
Definition mirror_client : client terminal :=
  fun name pos kw w =>
    if String.eqb name "showDeploys" then (Returned (VSeq (map VStr w)), w)
    else (Raised (mk_exn "AttributeError" name), w).

(** A renderer that fails after having written one line. *)
Definition broken_print_blocks : external terminal :=
  fun pos kw w => (Raised (mk_exn "BrokenPipeError" "Broken pipe"), w ++ ["-"]).

(** A namespace without a [hash] attribute. *)
Definition args_without_hash : namespace := {[ "host" := VStr "localhost" ]}.

(** A namespace with attributes next to [hash]. *)
Definition args_crowded : namespace :=
  {[ "hash" := VStr "abc123";
     "full_view" := VBool true;
     "host" := VStr "localhost" ]}.

End Fixtures.

(** ** The ways a run of the function body can end

    A relation between the starting state and the result, one rule per
    exit of the body: the attribute access fails, the query raises, the
    renderer raises, or both calls return. *)

Inductive body_run {W : Type} (_print_blocks : external W)
    (casperlabs_client : client W) (args : namespace) (st : state W)
  : outcome value * state W -> Prop :=
| run_no_hash :
    args !! "hash" = None ->
    body_run _print_blocks casperlabs_client args st
      (Raised (mk_exn "AttributeError"
                 "'Namespace' object has no attribute 'hash'"), st)
| run_query_raised h e w1 :
    args !! "hash" = Some h ->
    casperlabs_client "showDeploys" [h] [("full_view", VBool false)] (world st)
      = (Raised e, w1) ->
    body_run _print_blocks casperlabs_client args st
      (Raised e, mk_state w1 (trace st ++ [showDeploys_call h]))
| run_render_raised h r w1 e w2 :
    args !! "hash" = Some h ->
    casperlabs_client "showDeploys" [h] [("full_view", VBool false)] (world st)
      = (Returned r, w1) ->
    _print_blocks [r] [("element_name", VStr "deploy")] w1 = (Raised e, w2) ->
    body_run _print_blocks casperlabs_client args st
      (Raised e,
       mk_state w2 (trace st ++ [showDeploys_call h; print_blocks_call r]))
| run_done h r w1 o w2 :
    args !! "hash" = Some h ->
    casperlabs_client "showDeploys" [h] [("full_view", VBool false)] (world st)
      = (Returned r, w1) ->
    _print_blocks [r] [("element_name", VStr "deploy")] w1 = (Returned o, w2) ->
    body_run _print_blocks casperlabs_client args st
      (Returned VNone,
       mk_state w2 (trace st ++ [showDeploys_call h; print_blocks_call r])).

(** * Properties *)

(** ** Equations of the monad, oriented for rewriting *)

Section MonadEquations.

Context {W : Type}.

Lemma run_ret {A : Type} (a : A) (st : state W) :
  (mret a : M W A) st = (Returned a, st).
Proof. reflexivity. Qed.

Lemma run_bind {A B : Type} (m : M W A) (k : A -> M W B) (st : state W) :
  (m ≫= k) st =
  match m st with
  | (Returned a, st') => k a st'
  | (Raised e, st') => (Raised e, st')
  end.
Proof. reflexivity. Qed.

Lemma run_invoke (c : callee) (f : external W) pos kw (st : state W) :
  invoke c f pos kw st =
  ((f pos kw (world st)).1,
   mk_state (f pos kw (world st)).2 (trace st ++ [mk_call c pos kw])).
Proof. unfold invoke. destruct (f pos kw (world st)); reflexivity. Qed.

Lemma run_try_except {A : Type} (m : M W A) (h : exn -> M W A) (st : state W) :
  try_except m h st =
  match m st with
  | (Returned a, st') => (Returned a, st')
  | (Raised e, st') => h e st'
  end.
Proof. reflexivity. Qed.

Lemma issued_app {A : Type} (m : M W A) (st : state W) (cs : list call) :
  trace (m st).2 = trace st ++ cs -> issued m st = cs.
Proof.
  intros E. unfold issued. rewrite E. apply drop_app_length.
Qed.

End MonadEquations.

(** ** Every run of the body follows one of the four rules *)

Section BodyRuns.

Context {W : Type}.
Variable _print_blocks : external W.
Variable casperlabs_client : client W.
Variable args : namespace.

Lemma method_body_runs (st : state W) :
  body_run _print_blocks casperlabs_client args st
    (method_body _print_blocks casperlabs_client args st).
Proof.
  unfold method_body, getattr.
  destruct (args !! "hash") as [h|] eqn:Hh.
  - rewrite run_bind, run_ret, run_bind, run_invoke.
    destruct (casperlabs_client "showDeploys" [h] _ (world st))
      as [[r|e] w1] eqn:Hq; cbn [fst snd].
    + rewrite run_bind, run_invoke; cbn [world trace].
      destruct (_print_blocks [r] _ w1) as [[o|e] w2] eqn:Hp; cbn [fst snd];
        rewrite <- app_assoc.
      * rewrite run_ret. eapply run_done; eassumption.
      * eapply run_render_raised; eassumption.
    + apply run_query_raised; assumption.
  - apply run_no_hash; assumption.
Qed.

(** The body is driven by the collaborators alone: once the attribute is
    there and both calls return, the run completes. *)
Lemma method_body_completes (st : state W) h r w1 o w2 :
  args !! "hash" = Some h ->
  casperlabs_client "showDeploys" [h] [("full_view", VBool false)] (world st)
    = (Returned r, w1) ->
  _print_blocks [r] [("element_name", VStr "deploy")] w1 = (Returned o, w2) ->
  method_body _print_blocks casperlabs_client args st
    = (Returned VNone,
       mk_state w2 (trace st ++ [showDeploys_call h; print_blocks_call r])).
Proof.
  intros Hh Hq Hp.
  pose proof (method_body_runs st) as R.
  inversion R; congruence.
Qed.

(** With the attribute in hand, the run is the application of the
    client's [showDeploys] to it on the current world, followed, if that
    returns, by the application of the renderer to the response. *)
Lemma method_body_with_hash (st : state W) h :
  args !! "hash" = Some h ->
  method_body _print_blocks casperlabs_client args st
  = match casperlabs_client "showDeploys" [h] [("full_view", VBool false)]
            (world st) with
    | (Raised e, w1) =>
        (Raised e, mk_state w1 (trace st ++ [showDeploys_call h]))
    | (Returned response, w1) =>
        let '(o, w2) :=
          _print_blocks [response] [("element_name", VStr "deploy")] w1 in
        (match o with Returned _ => Returned VNone | Raised e => Raised e end,
         mk_state w2
           (trace st ++ [showDeploys_call h; print_blocks_call response]))
    end.
Proof.
  intros Hh.
  pose proof (method_body_runs st) as R.
  inversion R as [Hn E | h' e w1 Hh' Hq E | h' r w1 e w2 Hh' Hq Hp E
                 | h' r w1 o w2 Hh' Hq Hp E];
    try congruence;
    assert (h' = h) by congruence; subst h';
    rewrite Hq; try rewrite Hp; reflexivity.
Qed.

End BodyRuns.

(** ** The query *)

(** C1. Whatever string the [hash] attribute holds, a run of the function
    body issues exactly one call on the client object, and that call is
    [showDeploys] with the one positional argument [hash] and the one
    keyword argument [full_view=False].  The call is the application of
    the client's [showDeploys] to these arguments on the starting world:
    if it raises, the run ends there with that exception and that world;
    if it returns, its response and world are what the renderer is run
    on, and the renderer's result decides the outcome of the run. *)
Theorem method_body_one_client_call {W : Type}
    (_print_blocks : external W) (casperlabs_client : client W)
    (args : namespace) (hash : string) (st : state W) :
  args !! "hash" = Some (VStr hash) ->
  List.filter is_client_call
    (issued (method_body _print_blocks casperlabs_client args) st)
  = [mk_call (ClientMethod "showDeploys")
       [VStr hash] [("full_view", VBool false)]]
  /\ let q := casperlabs_client "showDeploys"
                [VStr hash] [("full_view", VBool false)] (world st) in
     match q.1 with
     | Raised e =>
         method_body _print_blocks casperlabs_client args st
         = (Raised e,
            mk_state q.2
              (trace st ++ [mk_call (ClientMethod "showDeploys")
                              [VStr hash] [("full_view", VBool false)]]))
     | Returned response =>
         let p := _print_blocks
                    [response] [("element_name", VStr "deploy")] q.2 in
         (method_body _print_blocks casperlabs_client args st).1
         = match p.1 with
           | Returned _ => Returned VNone
           | Raised e => Raised e
           end
         /\ world (method_body _print_blocks casperlabs_client args st).2
            = p.2
     end.
Proof.
  intros Hh.
  pose proof (method_body_with_hash _print_blocks casperlabs_client args
                st (VStr hash) Hh) as E.
  cbv zeta.
  destruct (casperlabs_client "showDeploys" _ _ (world st))
    as [[r|e] w1] eqn:Hq; cbn [fst snd].
  - destruct (_print_blocks _ _ w1) as [o w2] eqn:Hp.
    split.
    + erewrite issued_app by (rewrite E; reflexivity). reflexivity.
    + rewrite E. split; reflexivity.
  - split.
    + erewrite issued_app by (rewrite E; reflexivity). reflexivity.
    + exact E.
Qed.

Lemma method_body_one_client_call_witness :
  Fixtures.args_abc123 !! "hash" = Some (VStr "abc123") /\
  (List.filter is_client_call
     (issued (method_body Fixtures.stub_print_blocks
                (Fixtures.stub_client (Returned (VSeq [VStr "d0"; VStr "d1"])))
                Fixtures.args_abc123)
        Fixtures.fresh)
   = [mk_call (ClientMethod "showDeploys")
        [VStr "abc123"] [("full_view", VBool false)]]
   /\ (method_body Fixtures.stub_print_blocks
         (Fixtures.stub_client (Returned (VSeq [VStr "d0"; VStr "d1"])))
         Fixtures.args_abc123 Fixtures.fresh).1
      = Returned VNone
   /\ world (method_body Fixtures.stub_print_blocks
               (Fixtures.stub_client (Returned (VSeq [VStr "d0"; VStr "d1"])))
               Fixtures.args_abc123 Fixtures.fresh).2
      = ["element"; "element"; "count"]).
Proof.
  split; [reflexivity |].
  apply (method_body_one_client_call Fixtures.stub_print_blocks
           (Fixtures.stub_client (Returned (VSeq [VStr "d0"; VStr "d1"])))
           Fixtures.args_abc123 "abc123" Fixtures.fresh); reflexivity.
Defined.

(** C4. The string found in [args.hash] reaches [showDeploys] as it is:
    for any string at all, well-formed base16 or not, the first call the
    body issues is [showDeploys(hash, full_view=False)] with that very
    string, and the run is decided by what the client's [showDeploys]
    does when applied to that very string.  If it raises, the body raises
    the same; if it returns, the response is rendered.  Nothing is
    rejected or altered on the way. *)
Theorem method_body_hash_verbatim {W : Type}
    (_print_blocks : external W) (casperlabs_client : client W)
    (args : namespace) (hash : string) (st : state W) :
  args !! "hash" = Some (VStr hash) ->
  head (issued (method_body _print_blocks casperlabs_client args) st)
  = Some (mk_call (ClientMethod "showDeploys")
            [VStr hash] [("full_view", VBool false)])
  /\ (forall e w1,
        casperlabs_client "showDeploys"
          [VStr hash] [("full_view", VBool false)] (world st) = (Raised e, w1) ->
        method_body _print_blocks casperlabs_client args st
        = (Raised e,
           mk_state w1
             (trace st ++ [mk_call (ClientMethod "showDeploys")
                             [VStr hash] [("full_view", VBool false)]])))
  /\ (forall response w1,
        casperlabs_client "showDeploys"
          [VStr hash] [("full_view", VBool false)] (world st)
          = (Returned response, w1) ->
        issued (method_body _print_blocks casperlabs_client args) st
        = [mk_call (ClientMethod "showDeploys")
             [VStr hash] [("full_view", VBool false)];
           mk_call (UtilsFunction "_print_blocks")
             [response] [("element_name", VStr "deploy")]]
        /\ world (method_body _print_blocks casperlabs_client args st).2
           = (_print_blocks
                [response] [("element_name", VStr "deploy")] w1).2).
Proof.
  intros Hh.
  pose proof (method_body_with_hash _print_blocks casperlabs_client args
                st (VStr hash) Hh) as E.
  split; [| split].
  - destruct (casperlabs_client "showDeploys" _ _ (world st))
      as [[r|e] w1] eqn:Hq.
    + destruct (_print_blocks _ _ w1) as [o w2] eqn:Hp.
      erewrite issued_app by (rewrite E; reflexivity). reflexivity.
    + erewrite issued_app by (rewrite E; reflexivity). reflexivity.
  - intros e w1 Hq. rewrite E, Hq. reflexivity.
  - intros response w1 Hq. rewrite Hq in E.
    destruct (_print_blocks _ _ w1) as [o w2] eqn:Hp.
    split.
    + apply issued_app. rewrite E. reflexivity.
    + rewrite E. reflexivity.
Qed.

Lemma method_body_hash_verbatim_witness :
  Fixtures.args_abc123 !! "hash" = Some (VStr "abc123") /\
  (head (issued (method_body Fixtures.stub_print_blocks
                   Fixtures.mirror_client Fixtures.args_abc123)
           Fixtures.fresh)
   = Some (mk_call (ClientMethod "showDeploys")
             [VStr "abc123"] [("full_view", VBool false)])
   /\ (forall e w1,
         Fixtures.mirror_client "showDeploys"
           [VStr "abc123"] [("full_view", VBool false)] (world Fixtures.fresh)
         = (Raised e, w1) ->
         method_body Fixtures.stub_print_blocks Fixtures.mirror_client
           Fixtures.args_abc123 Fixtures.fresh
         = (Raised e,
            mk_state w1
              (trace Fixtures.fresh
               ++ [mk_call (ClientMethod "showDeploys")
                     [VStr "abc123"] [("full_view", VBool false)]])))
   /\ (forall response w1,
         Fixtures.mirror_client "showDeploys"
           [VStr "abc123"] [("full_view", VBool false)] (world Fixtures.fresh)
         = (Returned response, w1) ->
         issued (method_body Fixtures.stub_print_blocks Fixtures.mirror_client
                   Fixtures.args_abc123) Fixtures.fresh
         = [mk_call (ClientMethod "showDeploys")
              [VStr "abc123"] [("full_view", VBool false)];
            mk_call (UtilsFunction "_print_blocks")
              [response] [("element_name", VStr "deploy")]]
         /\ world (method_body Fixtures.stub_print_blocks
                     Fixtures.mirror_client Fixtures.args_abc123
                     Fixtures.fresh).2
            = (Fixtures.stub_print_blocks
                 [response] [("element_name", VStr "deploy")] w1).2)).
Proof.
  split; [reflexivity |].
  apply (method_body_hash_verbatim Fixtures.stub_print_blocks
           Fixtures.mirror_client Fixtures.args_abc123 "abc123"
           Fixtures.fresh); reflexivity.
Defined.

(** ** The rendering *)

(** C2. Whatever [showDeploys] returns, an empty sequence included, the
    body calls [_print_blocks] exactly once, with that response as the one
    positional argument and [element_name="deploy"] as the one keyword
    argument; the renderer runs on the world the query left behind. *)
Theorem method_body_renders_response {W : Type}
    (_print_blocks : external W) (casperlabs_client : client W)
    (args : namespace) (h response : value) (w1 : W) (st : state W) :
  args !! "hash" = Some h ->
  casperlabs_client "showDeploys" [h] [("full_view", VBool false)] (world st)
    = (Returned response, w1) ->
  List.filter is_print_blocks_call
    (issued (method_body _print_blocks casperlabs_client args) st)
  = [mk_call (UtilsFunction "_print_blocks")
       [response] [("element_name", VStr "deploy")]]
  /\ world (method_body _print_blocks casperlabs_client args st).2
     = (_print_blocks [response] [("element_name", VStr "deploy")] w1).2.
Proof.
  intros Hh Hq.
  pose proof (method_body_runs _print_blocks casperlabs_client args st) as R.
  inversion R as [Hn E | h' e w1' Hh' Hq' E | h' r w1' e w2 Hh' Hq' Hp E
                 | h' r w1' o w2 Hh' Hq' Hp E];
    try congruence;
    assert (h' = h) by congruence; subst h';
    assert (r = response /\ w1' = w1) as [-> ->] by (split; congruence);
    (split;
     [ erewrite issued_app by (rewrite <- E; reflexivity); reflexivity
     | rewrite Hp; reflexivity ]).
Qed.

Lemma method_body_renders_response_witness :
  Fixtures.args_abc123 !! "hash" = Some (VStr "abc123") /\
  Fixtures.stub_client (Returned (VSeq [])) "showDeploys"
    [VStr "abc123"] [("full_view", VBool false)] (world Fixtures.fresh)
    = (Returned (VSeq []), []) /\
  List.filter is_print_blocks_call
    (issued (method_body Fixtures.stub_print_blocks
               (Fixtures.stub_client (Returned (VSeq [])))
               Fixtures.args_abc123)
       Fixtures.fresh)
  = [mk_call (UtilsFunction "_print_blocks")
       [VSeq []] [("element_name", VStr "deploy")]]
  /\ world (method_body Fixtures.stub_print_blocks
              (Fixtures.stub_client (Returned (VSeq [])))
              Fixtures.args_abc123 Fixtures.fresh).2
     = (Fixtures.stub_print_blocks
          [VSeq []] [("element_name", VStr "deploy")] []).2.
Proof.
  split; [reflexivity | split; [reflexivity |]].
  apply (method_body_renders_response Fixtures.stub_print_blocks
           (Fixtures.stub_client (Returned (VSeq [])))
           Fixtures.args_abc123 (VStr "abc123") (VSeq []) []
           Fixtures.fresh); reflexivity.
Defined.

(** ** Exceptions *)

(** C3. An exception raised by [showDeploys] is not caught by the body:
    the run of the body ends by raising that same exception object, which
    is thus what the caller of the body receives. *)
Theorem method_body_propagates {W : Type}
    (_print_blocks : external W) (casperlabs_client : client W)
    (args : namespace) (h : value) (e : exn) (w1 : W) (st : state W) :
  args !! "hash" = Some h ->
  casperlabs_client "showDeploys" [h] [("full_view", VBool false)] (world st)
    = (Raised e, w1) ->
  (method_body _print_blocks casperlabs_client args st).1 = Raised e.
Proof.
  intros Hh Hq.
  pose proof (method_body_runs _print_blocks casperlabs_client args st) as R.
  inversion R as [Hn E | h' e' w1' Hh' Hq' E | h' r w1' e' w2 Hh' Hq' Hp E
                 | h' r w1' o w2 Hh' Hq' Hp E];
    try congruence;
    assert (h' = h) by congruence; subst h'; cbn [fst]; congruence.
Qed.

Lemma method_body_propagates_witness :
  Fixtures.args_abc123 !! "hash" = Some (VStr "abc123") /\
  Fixtures.stub_client (Raised Fixtures.block_not_found) "showDeploys"
    [VStr "abc123"] [("full_view", VBool false)] (world Fixtures.fresh)
    = (Raised Fixtures.block_not_found, []) /\
  (method_body Fixtures.stub_print_blocks
     (Fixtures.stub_client (Raised Fixtures.block_not_found))
     Fixtures.args_abc123 Fixtures.fresh).1
  = Raised Fixtures.block_not_found.
Proof.
  split; [reflexivity | split; [reflexivity |]].
  apply (method_body_propagates Fixtures.stub_print_blocks
           (Fixtures.stub_client (Raised Fixtures.block_not_found))
           Fixtures.args_abc123 (VStr "abc123") Fixtures.block_not_found []
           Fixtures.fresh); reflexivity.
Defined.

(** C10. When [showDeploys] raises, the body never reaches the renderer:
    the query is the only call issued, [_print_blocks] is not among the
    calls, and the world is left as the failed query left it. *)
Theorem method_body_no_render_on_error {W : Type}
    (_print_blocks : external W) (casperlabs_client : client W)
    (args : namespace) (h : value) (e : exn) (w1 : W) (st : state W) :
  args !! "hash" = Some h ->
  casperlabs_client "showDeploys" [h] [("full_view", VBool false)] (world st)
    = (Raised e, w1) ->
  issued (method_body _print_blocks casperlabs_client args) st
    = [showDeploys_call h]
  /\ List.filter is_print_blocks_call
       (issued (method_body _print_blocks casperlabs_client args) st) = []
  /\ world (method_body _print_blocks casperlabs_client args st).2 = w1.
Proof.
  intros Hh Hq.
  pose proof (method_body_runs _print_blocks casperlabs_client args st) as R.
  inversion R as [Hn E | h' e' w1' Hh' Hq' E | h' r w1' e' w2 Hh' Hq' Hp E
                 | h' r w1' o w2 Hh' Hq' Hp E];
    try congruence;
    assert (h' = h) by congruence; subst h'; try congruence.
  assert (w1' = w1) by congruence; subst w1'.
  erewrite issued_app by (rewrite <- E; reflexivity).
  repeat split.
Qed.

Lemma method_body_no_render_on_error_witness :
  Fixtures.args_abc123 !! "hash" = Some (VStr "abc123") /\
  Fixtures.stub_client (Raised Fixtures.block_not_found) "showDeploys"
    [VStr "abc123"] [("full_view", VBool false)] (world Fixtures.fresh)
    = (Raised Fixtures.block_not_found, []) /\
  issued (method_body Fixtures.stub_print_blocks
            (Fixtures.stub_client (Raised Fixtures.block_not_found))
            Fixtures.args_abc123) Fixtures.fresh
    = [showDeploys_call (VStr "abc123")]
  /\ List.filter is_print_blocks_call
       (issued (method_body Fixtures.stub_print_blocks
                  (Fixtures.stub_client (Raised Fixtures.block_not_found))
                  Fixtures.args_abc123) Fixtures.fresh) = []
  /\ world (method_body Fixtures.stub_print_blocks
              (Fixtures.stub_client (Raised Fixtures.block_not_found))
              Fixtures.args_abc123 Fixtures.fresh).2 = [].
Proof.
  split; [reflexivity | split; [reflexivity |]].
  apply (method_body_no_render_on_error Fixtures.stub_print_blocks
           (Fixtures.stub_client (Raised Fixtures.block_not_found))
           Fixtures.args_abc123 (VStr "abc123") Fixtures.block_not_found []
           Fixtures.fresh); reflexivity.
Defined.

(** ** Normal completion *)

(** C5. A run of the body that completes has done two things and no
    more: one [showDeploys] call on the client, which returned, and one
    [_print_blocks] call on its response, which returned.  These are the
    only calls issued, in this order, and the final world is the one the
    renderer produced from the one the query produced. *)
Theorem method_body_effects {W : Type}
    (_print_blocks : external W) (casperlabs_client : client W)
    (args : namespace) (st : state W) (v : value) :
  (method_body _print_blocks casperlabs_client args st).1 = Returned v ->
  exists h response w1 o,
    args !! "hash" = Some h
    /\ casperlabs_client "showDeploys" [h] [("full_view", VBool false)]
         (world st) = (Returned response, w1)
    /\ _print_blocks [response] [("element_name", VStr "deploy")] w1
       = (Returned o,
          world (method_body _print_blocks casperlabs_client args st).2)
    /\ issued (method_body _print_blocks casperlabs_client args) st
       = [mk_call (ClientMethod "showDeploys")
            [h] [("full_view", VBool false)];
          mk_call (UtilsFunction "_print_blocks")
            [response] [("element_name", VStr "deploy")]].
Proof.
  intros Hv.
  pose proof (method_body_runs _print_blocks casperlabs_client args st) as R.
  inversion R as [Hn E | h e w1 Hh Hq E | h r w1 e w2 Hh Hq Hp E
                 | h r w1 o w2 Hh Hq Hp E];
    rewrite <- E in Hv; cbn [fst] in Hv; try discriminate.
  exists h, r, w1, o. repeat split; try assumption.
  erewrite issued_app by (rewrite <- E; reflexivity). reflexivity.
Qed.

Lemma method_body_effects_witness :
  (method_body Fixtures.stub_print_blocks
     (Fixtures.stub_client (Returned (VSeq [VStr "d0"; VStr "d1"])))
     Fixtures.args_abc123 Fixtures.fresh).1 = Returned VNone /\
  exists h response w1 o,
    Fixtures.args_abc123 !! "hash" = Some h
    /\ Fixtures.stub_client (Returned (VSeq [VStr "d0"; VStr "d1"]))
         "showDeploys" [h] [("full_view", VBool false)]
         (world Fixtures.fresh) = (Returned response, w1)
    /\ Fixtures.stub_print_blocks
         [response] [("element_name", VStr "deploy")] w1
       = (Returned o,
          world (method_body Fixtures.stub_print_blocks
                   (Fixtures.stub_client
                      (Returned (VSeq [VStr "d0"; VStr "d1"])))
                   Fixtures.args_abc123 Fixtures.fresh).2)
    /\ issued (method_body Fixtures.stub_print_blocks
                 (Fixtures.stub_client
                    (Returned (VSeq [VStr "d0"; VStr "d1"])))
                 Fixtures.args_abc123) Fixtures.fresh
       = [mk_call (ClientMethod "showDeploys")
            [h] [("full_view", VBool false)];
          mk_call (UtilsFunction "_print_blocks")
            [response] [("element_name", VStr "deploy")]].
Proof.
  split; [reflexivity |].
  apply (method_body_effects Fixtures.stub_print_blocks
           (Fixtures.stub_client (Returned (VSeq [VStr "d0"; VStr "d1"])))
           Fixtures.args_abc123 Fixtures.fresh VNone); reflexivity.
Defined.

(** C8. A run of the body that completes hands [None] to its caller,
    whatever the client answered.  The response has one destination: it
    is the positional argument of the single [_print_blocks] call, which
    follows the single [showDeploys] call that produced it, and it is not
    the result of the function. *)
Theorem method_body_returns_none {W : Type}
    (_print_blocks : external W) (casperlabs_client : client W)
    (args : namespace) (st : state W) :
  is_returned (method_body _print_blocks casperlabs_client args st).1 = true ->
  (method_body _print_blocks casperlabs_client args st).1 = Returned VNone
  /\ exists h response w1,
       args !! "hash" = Some h
       /\ casperlabs_client "showDeploys" [h] [("full_view", VBool false)]
            (world st) = (Returned response, w1)
       /\ issued (method_body _print_blocks casperlabs_client args) st
          = [mk_call (ClientMethod "showDeploys")
               [h] [("full_view", VBool false)];
             mk_call (UtilsFunction "_print_blocks")
               [response] [("element_name", VStr "deploy")]]
       /\ world (method_body _print_blocks casperlabs_client args st).2
          = (_print_blocks
               [response] [("element_name", VStr "deploy")] w1).2.
Proof.
  intros Hv.
  pose proof (method_body_runs _print_blocks casperlabs_client args st) as R.
  inversion R as [Hn E | h e w1 Hh Hq E | h r w1 e w2 Hh Hq Hp E
                 | h r w1 o w2 Hh Hq Hp E];
    rewrite <- E in Hv; cbn in Hv; try discriminate.
  split; [reflexivity |].
  exists h, r, w1. repeat split; try assumption.
  - erewrite issued_app by (rewrite <- E; reflexivity). reflexivity.
  - rewrite Hp. reflexivity.
Qed.

Lemma method_body_returns_none_witness :
  is_returned
    (method_body Fixtures.stub_print_blocks
       (Fixtures.stub_client (Returned (VSeq [VStr "d0"; VStr "d1"])))
       Fixtures.args_abc123 Fixtures.fresh).1 = true /\
  ((method_body Fixtures.stub_print_blocks
      (Fixtures.stub_client (Returned (VSeq [VStr "d0"; VStr "d1"])))
      Fixtures.args_abc123 Fixtures.fresh).1 = Returned VNone
   /\ exists h response w1,
        Fixtures.args_abc123 !! "hash" = Some h
        /\ Fixtures.stub_client (Returned (VSeq [VStr "d0"; VStr "d1"]))
             "showDeploys" [h] [("full_view", VBool false)]
             (world Fixtures.fresh) = (Returned response, w1)
        /\ issued (method_body Fixtures.stub_print_blocks
                     (Fixtures.stub_client
                        (Returned (VSeq [VStr "d0"; VStr "d1"])))
                     Fixtures.args_abc123) Fixtures.fresh
           = [mk_call (ClientMethod "showDeploys")
                [h] [("full_view", VBool false)];
              mk_call (UtilsFunction "_print_blocks")
                [response] [("element_name", VStr "deploy")]]
        /\ world (method_body Fixtures.stub_print_blocks
                    (Fixtures.stub_client
                       (Returned (VSeq [VStr "d0"; VStr "d1"])))
                    Fixtures.args_abc123 Fixtures.fresh).2
           = (Fixtures.stub_print_blocks
                [response] [("element_name", VStr "deploy")] w1).2).
Proof.
  split; [reflexivity |].
  apply (method_body_returns_none Fixtures.stub_print_blocks
           (Fixtures.stub_client (Returned (VSeq [VStr "d0"; VStr "d1"])))
           Fixtures.args_abc123 Fixtures.fresh); reflexivity.
Defined.

(** ** The command-line surface *)

(** C9. The command is registered under the name [show-deploys] and its
    help text reads [View deploys included in a block.] *)
Theorem NAME_and_HELP :
  NAME = "show-deploys" /\ HELP = "View deploys included in a block.".
Proof. split; reflexivity. Qed.

(** C6, as stated, fails: no entry of [OPTIONS] carries the name
    [--hash], whatever its type and description. *)
Lemma OPTIONS_has_no_hash_flag :
  ~ (exists o,
       In o OPTIONS
       /\ In "--hash" (option_names o)
       /\ option_settings o !! "type" = Some (VType "str")
       /\ option_settings o !! "help"
          = Some (VStr "Value of the block hash, base16 encoded.")).
Proof.
  intros (o & Hin & Hname & _).
  destruct Hin as [<- | []].
  cbn in Hname. destruct Hname as [Hname | []]. discriminate Hname.
Qed.

(** C6, amended. [OPTIONS] declares the hash parameter as a required
    positional argument named [hash], written without leading dashes and
    so not a [--hash] flag, taking a string, with the description
    [Value of the block hash, base16 encoded.] *)
Theorem OPTIONS_hash_positional :
  exists names settings,
    OPTIONS = [(names, settings)]
    /\ names = ["hash"]
    /\ existsb is_flag_name names = false
    /\ argparse_required (names, settings) = true
    /\ settings !! "type" = Some (VType "str")
    /\ settings !! "help"
       = Some (VStr "Value of the block hash, base16 encoded.").
Proof.
  do 2 eexists. split; [reflexivity |]. repeat split; reflexivity.
Qed.

(** ** The guard *)

(** C7, as stated, fails: [method] is not the bare function body.  With a
    guard as the spec describes it and a client whose [showDeploys]
    raises, the body raises while [method] reports the message and
    returns the exit code 1. *)
Lemma method_is_not_the_bare_body :
  method_body Fixtures.stub_print_blocks
    (Fixtures.stub_client (Raised Fixtures.block_not_found))
    Fixtures.args_abc123 Fixtures.fresh
  = (Raised Fixtures.block_not_found,
     mk_state [] [showDeploys_call (VStr "abc123")])
  /\ method (guarded_command_spec Fixtures.stub_report)
       Fixtures.stub_print_blocks
       (Fixtures.stub_client (Raised Fixtures.block_not_found))
       Fixtures.args_abc123 Fixtures.fresh
     = (Returned (VInt 1),
        mk_state ["NOT_FOUND: Cannot find block matching hash abc123"]
          [showDeploys_call (VStr "abc123");
           mk_call (Builtin "print")
             [VStr "NOT_FOUND: Cannot find block matching hash abc123"] []])
  /\ method (guarded_command_spec Fixtures.stub_report)
       Fixtures.stub_print_blocks
       (Fixtures.stub_client (Raised Fixtures.block_not_found))
       Fixtures.args_abc123 Fixtures.fresh
     <> method_body Fixtures.stub_print_blocks
          (Fixtures.stub_client (Raised Fixtures.block_not_found))
          Fixtures.args_abc123 Fixtures.fresh.
Proof.
  split; [reflexivity | split; [reflexivity | discriminate]].
Qed.

(** C7, amended. The module itself applies the guard: for whichever
    [guarded_command] is imported, the module attribute [method] is that
    wrapper applied to the function body, and the dispatcher receives the
    wrapped callable. *)
Theorem method_is_guarded {W : Type}
    (guarded_command : command W -> command W)
    (_print_blocks : external W) (casperlabs_client : client W)
    (args : namespace) (st : state W) :
  method guarded_command _print_blocks casperlabs_client args st
  = guarded_command (method_body _print_blocks) casperlabs_client args st.
Proof. reflexivity. Qed.

(** * Further properties of the function body *)

(** ** Missing attribute *)

(** X1. When the namespace has no [hash] attribute the body raises
    [AttributeError] at once: no call is issued to any collaborator and
    the state is the one the body started in. *)
Theorem method_body_missing_hash {W : Type}
    (_print_blocks : external W) (casperlabs_client : client W)
    (args : namespace) (st : state W) :
  args !! "hash" = None ->
  exists e,
    method_body _print_blocks casperlabs_client args st = (Raised e, st)
    /\ exn_class e = "AttributeError"
    /\ issued (method_body _print_blocks casperlabs_client args) st = [].
Proof.
  intros Hn.
  pose proof (method_body_runs _print_blocks casperlabs_client args st) as R.
  inversion R as [Hn' E | h e w1 Hh Hq E | h r w1 e w2 Hh Hq Hp E
                 | h r w1 o w2 Hh Hq Hp E]; try congruence.
  eexists. split; [reflexivity |]. split; [reflexivity |].
  unfold issued. rewrite <- E. cbn [snd]. apply drop_all.
Qed.

Lemma method_body_missing_hash_witness :
  Fixtures.args_without_hash !! "hash" = None /\
  exists e,
    method_body Fixtures.stub_print_blocks
      (Fixtures.busy_client (Returned (VSeq [])))
      Fixtures.args_without_hash Fixtures.fresh
    = (Raised e, Fixtures.fresh)
    /\ exn_class e = "AttributeError"
    /\ issued (method_body Fixtures.stub_print_blocks
                 (Fixtures.busy_client (Returned (VSeq [])))
                 Fixtures.args_without_hash) Fixtures.fresh = [].
Proof.
  split; [reflexivity |].
  apply (method_body_missing_hash Fixtures.stub_print_blocks
           (Fixtures.busy_client (Returned (VSeq [])))
           Fixtures.args_without_hash Fixtures.fresh); reflexivity.
Defined.

(** ** A renderer that raises *)

(** X2. An exception raised by [_print_blocks] is not caught either: the
    body ends by raising that same exception, after the query and the
    rendering call have both been issued, and the world is the one the
    failing renderer left. *)
Theorem method_body_render_error_propagates {W : Type}
    (_print_blocks : external W) (casperlabs_client : client W)
    (args : namespace) (h response : value) (e : exn) (w1 w2 : W)
    (st : state W) :
  args !! "hash" = Some h ->
  casperlabs_client "showDeploys" [h] [("full_view", VBool false)] (world st)
    = (Returned response, w1) ->
  _print_blocks [response] [("element_name", VStr "deploy")] w1
    = (Raised e, w2) ->
  method_body _print_blocks casperlabs_client args st
  = (Raised e,
     mk_state w2
       (trace st ++ [showDeploys_call h; print_blocks_call response])).
Proof.
  intros Hh Hq Hp.
  pose proof (method_body_runs _print_blocks casperlabs_client args st) as R.
  inversion R as [Hn E | h' e' w1' Hh' Hq' E | h' r w1' e' w2' Hh' Hq' Hp' E
                 | h' r w1' o w2' Hh' Hq' Hp' E];
    try congruence;
    assert (h' = h) by congruence; subst h'; try congruence;
    assert (r = response /\ w1' = w1) as [-> ->] by (split; congruence);
    congruence.
Qed.

Lemma method_body_render_error_propagates_witness :
  Fixtures.args_abc123 !! "hash" = Some (VStr "abc123") /\
  Fixtures.stub_client (Returned (VSeq [VStr "d0"])) "showDeploys"
    [VStr "abc123"] [("full_view", VBool false)] (world Fixtures.fresh)
    = (Returned (VSeq [VStr "d0"]), []) /\
  Fixtures.broken_print_blocks
    [VSeq [VStr "d0"]] [("element_name", VStr "deploy")] []
    = (Raised (mk_exn "BrokenPipeError" "Broken pipe"), ["-"]) /\
  method_body Fixtures.broken_print_blocks
    (Fixtures.stub_client (Returned (VSeq [VStr "d0"])))
    Fixtures.args_abc123 Fixtures.fresh
  = (Raised (mk_exn "BrokenPipeError" "Broken pipe"),
     mk_state ["-"]
       (trace Fixtures.fresh
        ++ [showDeploys_call (VStr "abc123");
            print_blocks_call (VSeq [VStr "d0"])])).
Proof.
  split; [reflexivity | split; [reflexivity | split; [reflexivity |]]].
  apply (method_body_render_error_propagates Fixtures.broken_print_blocks
           (Fixtures.stub_client (Returned (VSeq [VStr "d0"])))
           Fixtures.args_abc123 (VStr "abc123") (VSeq [VStr "d0"])
           (mk_exn "BrokenPipeError" "Broken pipe") [] ["-"]
           Fixtures.fresh); reflexivity.
Defined.



(** ** What the body reads *)

(** X4. The body looks at nothing but [args.hash] and the [showDeploys]
    method of the client: two namespaces that agree on [hash] and two
    clients that agree on [showDeploys] give the same run, whatever else
    they hold. *)
Theorem method_body_reads_only {W : Type}
    (_print_blocks : external W) (client1 client2 : client W)
    (args1 args2 : namespace) (st : state W) :
  args1 !! "hash" = args2 !! "hash" ->
  (forall pos kw w,
     client1 "showDeploys" pos kw w = client2 "showDeploys" pos kw w) ->
  method_body _print_blocks client1 args1 st
  = method_body _print_blocks client2 args2 st.
Proof.
  intros Ha Hc.
  pose proof (method_body_runs _print_blocks client1 args1 st) as R1.
  pose proof (method_body_runs _print_blocks client2 args2 st) as R2.
  inversion R1 as [Hn E | h e w1 Hh Hq E | h r w1 e w2 Hh Hq Hp E
                  | h r w1 o w2 Hh Hq Hp E];
    inversion R2 as [Hn' E' | h' e' w1' Hh' Hq' E' | h' r' w1' e' w2' Hh' Hq' Hp' E'
                    | h' r' w1' o' w2' Hh' Hq' Hp' E'];
    try congruence;
    assert (h' = h) by congruence; subst h';
    rewrite Hc in Hq; try congruence;
    assert (r' = r /\ w1' = w1) as [-> ->] by (split; congruence);
    congruence.
Qed.

Lemma method_body_reads_only_witness :
  Fixtures.args_abc123 !! "hash" = Fixtures.args_crowded !! "hash" /\
  (forall pos kw w,
     Fixtures.stub_client (Returned (VSeq [VStr "d0"])) "showDeploys" pos kw w
     = Fixtures.busy_client (Returned (VSeq [VStr "d0"])) "showDeploys" pos kw w)
  /\
  method_body Fixtures.stub_print_blocks
    (Fixtures.stub_client (Returned (VSeq [VStr "d0"])))
    Fixtures.args_abc123 Fixtures.fresh
  = method_body Fixtures.stub_print_blocks
      (Fixtures.busy_client (Returned (VSeq [VStr "d0"])))
      Fixtures.args_crowded Fixtures.fresh.
Proof.
  split; [reflexivity | split; [intros pos kw w; reflexivity |]].
  apply method_body_reads_only; [reflexivity | intros pos kw w; reflexivity].
Defined.

(** X5. The body does not check the type of [args.hash]: whatever value
    the attribute holds, a string or not, the run is the application of
    the client's [showDeploys] to that value and [full_view=False] on the
    starting world, followed, if it returns, by the rendering of the
    response; the call carrying that value is the first one issued and no
    further call goes to the client. *)
Theorem method_body_hash_any_value {W : Type}
    (_print_blocks : external W) (casperlabs_client : client W)
    (args : namespace) (h : value) (st : state W) :
  args !! "hash" = Some h ->
  method_body _print_blocks casperlabs_client args st
  = match casperlabs_client "showDeploys" [h] [("full_view", VBool false)]
            (world st) with
    | (Raised e, w1) =>
        (Raised e, mk_state w1 (trace st ++ [showDeploys_call h]))
    | (Returned response, w1) =>
        let '(o, w2) :=
          _print_blocks [response] [("element_name", VStr "deploy")] w1 in
        (match o with Returned _ => Returned VNone | Raised e => Raised e end,
         mk_state w2
           (trace st ++ [showDeploys_call h; print_blocks_call response]))
    end
  /\ exists rest,
       issued (method_body _print_blocks casperlabs_client args) st
       = showDeploys_call h :: rest
       /\ List.filter is_client_call rest = [].
Proof.
  intros Hh.
  pose proof (method_body_with_hash _print_blocks casperlabs_client args
                st h Hh) as E.
  split; [exact E |].
  destruct (casperlabs_client "showDeploys" _ _ (world st))
    as [[r|e] w1] eqn:Hq.
  - destruct (_print_blocks _ _ w1) as [o w2] eqn:Hp.
    erewrite issued_app by (rewrite E; reflexivity).
    eexists; split; reflexivity.
  - erewrite issued_app by (rewrite E; reflexivity).
    eexists; split; reflexivity.
Qed.

Lemma method_body_hash_any_value_witness :
  ({[ "hash" := VNone ]} : namespace) !! "hash" = Some VNone /\
  (method_body Fixtures.stub_print_blocks
     (Fixtures.stub_client (Raised Fixtures.block_not_found))
     ({[ "hash" := VNone ]} : namespace) Fixtures.fresh
   = (Raised Fixtures.block_not_found,
      mk_state [] (trace Fixtures.fresh ++ [showDeploys_call VNone]))
   /\ exists rest,
        issued (method_body Fixtures.stub_print_blocks
                  (Fixtures.stub_client (Raised Fixtures.block_not_found))
                  ({[ "hash" := VNone ]} : namespace)) Fixtures.fresh
        = showDeploys_call VNone :: rest
        /\ List.filter is_client_call rest = []).
Proof.
  split; [reflexivity |].
  apply (method_body_hash_any_value Fixtures.stub_print_blocks
           (Fixtures.stub_client (Raised Fixtures.block_not_found))
           ({[ "hash" := VNone ]} : namespace) VNone Fixtures.fresh);
    reflexivity.
Defined.

(** ** The schema and the body agree *)

(** X6. [OPTIONS] declares every attribute the body needs: on a namespace
    that holds a value for each name declared in [OPTIONS], the attribute
    access succeeds and the body performs the query.  The client's
    [showDeploys] is applied to the value stored under [hash]; if it
    raises, the body ends with that exception, and if it returns, the
    response is rendered. *)
Theorem OPTIONS_cover_method_body {W : Type}
    (_print_blocks : external W) (casperlabs_client : client W)
    (args : namespace) (st : state W) :
  (forall o name,
     In o OPTIONS -> In name (option_names o) -> is_Some (args !! name)) ->
  exists h,
    args !! "hash" = Some h
    /\ head (issued (method_body _print_blocks casperlabs_client args) st)
       = Some (showDeploys_call h)
    /\ (forall e w1,
          casperlabs_client "showDeploys" [h] [("full_view", VBool false)]
            (world st) = (Raised e, w1) ->
          method_body _print_blocks casperlabs_client args st
          = (Raised e, mk_state w1 (trace st ++ [showDeploys_call h])))
    /\ (forall response w1,
          casperlabs_client "showDeploys" [h] [("full_view", VBool false)]
            (world st) = (Returned response, w1) ->
          issued (method_body _print_blocks casperlabs_client args) st
          = [showDeploys_call h; print_blocks_call response]
          /\ world (method_body _print_blocks casperlabs_client args st).2
             = (_print_blocks
                  [response] [("element_name", VStr "deploy")] w1).2).
Proof.
  intros Hcover.
  destruct (Hcover (["hash"], _) "hash" (or_introl eq_refl) (or_introl eq_refl))
    as [h Hh].
  exists h. split; [assumption |].
  pose proof (method_body_with_hash _print_blocks casperlabs_client args
                st h Hh) as E.
  split; [| split].
  - destruct (casperlabs_client "showDeploys" _ _ (world st))
      as [[r|e] w1] eqn:Hq.
    + destruct (_print_blocks _ _ w1) as [o w2] eqn:Hp.
      erewrite issued_app by (rewrite E; reflexivity). reflexivity.
    + erewrite issued_app by (rewrite E; reflexivity). reflexivity.
  - intros e w1 Hq. rewrite E, Hq. reflexivity.
  - intros response w1 Hq. rewrite Hq in E.
    destruct (_print_blocks _ _ w1) as [o w2] eqn:Hp.
    split.
    + apply issued_app. rewrite E. reflexivity.
    + rewrite E. reflexivity.
Qed.

Lemma OPTIONS_cover_method_body_witness :
  (forall o name,
     In o OPTIONS -> In name (option_names o) ->
     is_Some (Fixtures.args_crowded !! name)) /\
  exists h,
    Fixtures.args_crowded !! "hash" = Some h
    /\ head (issued (method_body Fixtures.stub_print_blocks
                       Fixtures.mirror_client
                       Fixtures.args_crowded) Fixtures.fresh)
       = Some (showDeploys_call h)
    /\ (forall e w1,
          Fixtures.mirror_client "showDeploys" [h] [("full_view", VBool false)]
            (world Fixtures.fresh) = (Raised e, w1) ->
          method_body Fixtures.stub_print_blocks Fixtures.mirror_client
            Fixtures.args_crowded Fixtures.fresh
          = (Raised e,
             mk_state w1 (trace Fixtures.fresh ++ [showDeploys_call h])))
    /\ (forall response w1,
          Fixtures.mirror_client "showDeploys" [h] [("full_view", VBool false)]
            (world Fixtures.fresh) = (Returned response, w1) ->
          issued (method_body Fixtures.stub_print_blocks
                    Fixtures.mirror_client
                    Fixtures.args_crowded) Fixtures.fresh
          = [showDeploys_call h; print_blocks_call response]
          /\ world (method_body Fixtures.stub_print_blocks
                      Fixtures.mirror_client
                      Fixtures.args_crowded Fixtures.fresh).2
             = (Fixtures.stub_print_blocks
                  [response] [("element_name", VStr "deploy")] w1).2).
Proof.
  assert (forall o name,
            In o OPTIONS -> In name (option_names o) ->
            is_Some (Fixtures.args_crowded !! name)) as Hcover.
  { intros o name [<- | []] [<- | []]. exists (VStr "abc123"). reflexivity. }
  split; [exact Hcover |].
  apply (OPTIONS_cover_method_body Fixtures.stub_print_blocks
           Fixtures.mirror_client
           Fixtures.args_crowded Fixtures.fresh Hcover).
Defined.

(** ** Two invocations in a row *)

(** X7. The body keeps nothing between invocations.  Run twice in a row
    on the same namespace, it queries the client a second time, on the
    world the first rendering left, and renders the second answer: four
    calls in all, and no answer is reused. *)
Theorem method_body_twice {W : Type}
    (_print_blocks : external W) (casperlabs_client : client W)
    (args : namespace) (h r1 r2 o1 o2 : value) (w1 w2 w3 w4 : W)
    (st : state W) :
  args !! "hash" = Some h ->
  casperlabs_client "showDeploys" [h] [("full_view", VBool false)] (world st)
    = (Returned r1, w1) ->
  _print_blocks [r1] [("element_name", VStr "deploy")] w1 = (Returned o1, w2) ->
  casperlabs_client "showDeploys" [h] [("full_view", VBool false)] w2
    = (Returned r2, w3) ->
  _print_blocks [r2] [("element_name", VStr "deploy")] w3 = (Returned o2, w4) ->
  (method_body _print_blocks casperlabs_client args;;
   method_body _print_blocks casperlabs_client args) st
  = (Returned VNone,
     mk_state w4
       (trace st ++ [showDeploys_call h; print_blocks_call r1;
                     showDeploys_call h; print_blocks_call r2])).
Proof.
  intros Hh Hq1 Hp1 Hq2 Hp2.
  rewrite run_bind.
  rewrite (method_body_completes _print_blocks casperlabs_client args
             st h r1 w1 o1 w2 Hh Hq1 Hp1).
  rewrite (method_body_completes _print_blocks casperlabs_client args
             (mk_state w2
                (trace st ++ [showDeploys_call h; print_blocks_call r1]))
             h r2 w3 o2 w4 Hh Hq2 Hp2).
  cbn [trace]. rewrite <- app_assoc. reflexivity.
Qed.

Lemma method_body_twice_witness :
  Fixtures.args_abc123 !! "hash" = Some (VStr "abc123") /\
  Fixtures.mirror_client "showDeploys"
    [VStr "abc123"] [("full_view", VBool false)] (world Fixtures.fresh)
    = (Returned (VSeq []), []) /\
  Fixtures.stub_print_blocks [VSeq []] [("element_name", VStr "deploy")] []
    = (Returned VNone, ["count"]) /\
  Fixtures.mirror_client "showDeploys"
    [VStr "abc123"] [("full_view", VBool false)] ["count"]
    = (Returned (VSeq [VStr "count"]), ["count"]) /\
  Fixtures.stub_print_blocks
    [VSeq [VStr "count"]] [("element_name", VStr "deploy")] ["count"]
    = (Returned VNone, ["count"; "element"; "count"]) /\
  (method_body Fixtures.stub_print_blocks Fixtures.mirror_client
     Fixtures.args_abc123;;
   method_body Fixtures.stub_print_blocks Fixtures.mirror_client
     Fixtures.args_abc123) Fixtures.fresh
  = (Returned VNone,
     mk_state ["count"; "element"; "count"]
       (trace Fixtures.fresh
        ++ [showDeploys_call (VStr "abc123"); print_blocks_call (VSeq []);
            showDeploys_call (VStr "abc123");
            print_blocks_call (VSeq [VStr "count"])])).
Proof.
  repeat (split; [reflexivity |]).
  apply (method_body_twice Fixtures.stub_print_blocks Fixtures.mirror_client
           Fixtures.args_abc123 (VStr "abc123")
           (VSeq []) (VSeq [VStr "count"]) VNone VNone
           [] ["count"] ["count"] ["count"; "element"; "count"]
           Fixtures.fresh); reflexivity.
Defined.
